(** * archai.nas.evaluater: the model-resolution protocol of [Evaluater]

    A shallow embedding of [src/archai/nas/evaluater.py].  The methods of
    [Evaluater] are orchestration code over collaborators that live in
    other modules (the trainer, the data loader, the description builder,
    the logger, [importlib]).  The embedding keeps the code of the methods
    as it is written and abstracts the collaborators into one oracle: every
    call that leaves the file is answered by a function of the callee, the
    arguments and the state of the outside world, and is recorded, with its
    outcome, in a trace. *)

From Stdlib Require Import String Ascii List ZArith Bool Lia.
From stdpp Require Import base option gmap strings.
Import ListNotations.

Local Open Scope string_scope.
Local Open Scope list_scope.

(** ** Python values *)

(** The values that flow through the methods: configuration entries
    ([Config] is a dictionary keyed by strings, nested), strings, tuples
    returned by collaborators, and objects of other modules, of which only
    the identity matters here. *)
#[warnings="-register-all"]
Inductive pyval : Type :=
  | VNone
  | VBool (b : bool)
  | VInt (z : Z)
  | VStr (s : string)
  | VTuple (items : list pyval)
  | VConf (entries : gmap string pyval)
  | VObj (id : N).

(** A raised exception: its class, its message and its [__cause__]. *)
#[warnings="-register-all"]
Inductive exn : Type :=
  | PyExn (cls : string) (msg : string) (cause : option exn).

Definition exn_cls (e : exn) : string := let 'PyExn c _ _ := e in c.
Definition exn_msg (e : exn) : string := let 'PyExn _ m _ := e in m.
Definition exn_cause (e : exn) : option exn := let 'PyExn _ _ c := e in c.

Definition NotImplementedError (msg : string) : exn :=
  PyExn "NotImplementedError" msg None.
Definition KeyError (key : string) : exn := PyExn "KeyError" key None.
Definition TypeError (msg : string) : exn := PyExn "TypeError" msg None.
Definition ValueError (msg : string) : exn := PyExn "ValueError" msg None.
Definition AttributeError (attr : string) : exn :=
  PyExn "AttributeError" attr None.
Definition AssertionError : exn := PyExn "AssertionError" "" None.

(** Truth value of an object, as [if x:] and [not x] test it. *)
Definition truthy (v : pyval) : bool :=
  match v with
  | VNone => false
  | VBool b => b
  | VInt z => negb (z =? 0)%Z
  | VStr s => negb (s =? "")%string
  | VTuple items => negb (Nat.eqb (length items) 0)
  | VConf entries => negb (Nat.eqb (size entries) 0)
  | VObj _ => true
  end.

(** [x is not None] *)
Definition is_not_None (v : pyval) : bool :=
  match v with VNone => false | _ => true end.

(** ** Strings *)

(** [s.startswith(p)] *)
Fixpoint startswith (s p : string) {struct p} : bool :=
  match p, s with
  | EmptyString, _ => true
  | String _ _, EmptyString => false
  | String a p', String b s' => Ascii.eqb a b && startswith s' p'
  end.

(** ['c' in s] for a one-character string. *)
Fixpoint contains_char (c : ascii) (s : string) : bool :=
  match s with
  | EmptyString => false
  | String a s' => Ascii.eqb a c || contains_char c s'
  end.

(** The cut of [s] at the last occurrence of [sep], when there is one. *)
Fixpoint rpartition (sep : ascii) (s : string) : option (string * string) :=
  match s with
  | EmptyString => None
  | String a s' =>
      match rpartition sep s' with
      | Some (before, after) => Some (String a before, after)
      | None => if Ascii.eqb a sep then Some (EmptyString, s') else None
      end
  end.

(** [s.rsplit(sep, 1)] for a one-character separator: at most one split, at
    the rightmost separator. *)
Definition rsplit1 (sep : ascii) (s : string) : list string :=
  match rpartition sep s with
  | Some (before, after) => [before; after]
  | None => [s]
  end.

(** ** [Evaluater._default_module_name] *)

Definition unsupported_msg (function_name dataset_name : string) : string :=
  "Cannot get default module for " ++ function_name ++ " and dataset "
  ++ dataset_name ++ " because it is not supported yet".

Definition _default_module_name (dataset_name function_name : string)
  : exn + string :=
  let module_name := "" in
  let module_name :=
    if startswith dataset_name "cifar" then
      if startswith function_name "res" then "archai.cifar10_models.resnet"
      else if startswith function_name "dense"
           then "archai.cifar10_models.densenet"
           else module_name
    else if startswith dataset_name "imagenet"
            || startswith dataset_name "sport8"
         then "torchvision.models"
         else module_name in
  if negb (truthy (VStr module_name))
  then inl (NotImplementedError (unsupported_msg function_name dataset_name))
  else inr module_name.

(** ** Results *)

(** A step that raises ends the computation with its exception. *)
Definition and_then {A B} (r : exn + A) (k : A -> exn + B) : exn + B :=
  match r with
  | inl e => inl e
  | inr a => k a
  end.

Notation "'let?' x ':=' r 'in' k" := (and_then r (fun x => k))
  (at level 10, x name, r at level 100, k at level 200).

(** ** Configuration and unpacking *)

(** [conf[key]] on a [Config]: a missing key raises [KeyError]; a value
    that is not a dictionary cannot be subscripted by a string. *)
Definition getitem (conf : pyval) (key : string) : exn + pyval :=
  match conf with
  | VConf entries =>
      match entries !! key with
      | Some v => inr v
      | None => inl (KeyError key)
      end
  | _ => inl (TypeError "subscript")
  end.

(** [a, _, b = v]: [data.get_data] returns a tuple; a tuple of another
    length raises [ValueError], a value that is not a tuple cannot be
    unpacked. *)
Definition unpack3 (v : pyval) : exn + (pyval * pyval * pyval) :=
  match v with
  | VTuple [a; b; c] => inr (a, b, c)
  | VTuple _ => inl (ValueError "unpack")
  | _ => inl (TypeError "unpack")
  end.

(** [spec.rsplit('.', 1)]: only strings have the method. *)
Definition str_rsplit1 (v : pyval) : exn + list string :=
  match v with
  | VStr s => inr (rsplit1 "." s)
  | _ => inl (AttributeError "rsplit")
  end.

(** The [# region conf vars] of [create_model]: the dataset name, the two
    description paths (read from the configuration unless a final
    description path is passed in), the factory spec and the description
    configuration. *)
Definition create_model_conf_vars
    (conf_eval final_desc_filename full_desc_filename : pyval)
  : exn + (pyval * pyval * pyval * pyval * pyval) :=
  let? loader := getitem conf_eval "loader" in
  let? dataset := getitem loader "dataset" in
  let? dataset_name := getitem dataset "name" in
  let? paths :=
    if negb (truthy final_desc_filename) then
      let? final_desc_filename := getitem conf_eval "final_desc_filename" in
      let? full_desc_filename := getitem conf_eval "full_desc_filename" in
      inr (final_desc_filename, full_desc_filename)
    else inr (final_desc_filename, full_desc_filename) in
  let? model_factory_spec := getitem conf_eval "model_factory_spec" in
  let? conf_model_desc := getitem conf_eval "model_desc" in
  inr (dataset_name, fst paths, snd paths, model_factory_spec,
       conf_model_desc).

(** ** Effects *)

(** What a run of a method leaves behind, in order: the calls of methods
    of [Evaluater] on [self], and the calls of collaborators with their
    positional arguments, keyword arguments and outcome. *)
Inductive event : Type :=
  | SelfCall (method : string) (args : list pyval)
  | Ext (callee : string) (args : list pyval)
        (kwargs : list (string * pyval)) (outcome : exn + pyval).

Definition trace := list event.

(** A computation reads and changes the outside world [W], raises or
    returns, and emits a trace. *)
Definition M (W A : Type) : Type := W -> (exn + A) * W * trace.

(** The collaborators: callee, positional and keyword arguments, world. *)
Definition oracle (W : Type) : Type :=
  string -> list pyval -> list (string * pyval) -> W -> (exn + pyval) * W.

Definition ret {W A} (a : A) : M W A := fun w => (inr a, w, []).

Definition raise {W A} (e : exn) : M W A := fun w => (inl e, w, []).

Definition bind {W A B} (m : M W A) (k : A -> M W B) : M W B :=
  fun w =>
    match m w with
    | (inl e, w1, t1) => (inl e, w1, t1)
    | (inr a, w1, t1) =>
        match k a w1 with
        | (r, w2, t2) => (r, w2, t1 ++ t2)
        end
    end.

Definition lift {W A} (r : exn + A) : M W A := fun w => (r, w, []).

Definition emit {W} (ev : event) : M W unit := fun w => (inr tt, w, [ev]).

Notation "'let*' x ':=' m 'in' k" := (bind m (fun x => k))
  (at level 10, x pattern, m at level 100, k at level 200).

(** [assert c] *)
Definition assert_ {W} (c : bool) : M W unit :=
  if c then ret tt else raise AssertionError.

Section Evaluater.
Context {W : Type} (ext : oracle W).

(** A call of a collaborator. *)
Definition call (callee : string) (args : list pyval)
    (kwargs : list (string * pyval)) : M W pyval :=
  fun w =>
    match ext callee args kwargs w with
    | (r, w') => (r, w', [Ext callee args kwargs r])
    end.

(** [self.method(args)] *)
Definition self_call {A} (method : string) (args : list pyval)
    (body : M W A) : M W A :=
  let* _ := emit (SelfCall method args) in body.

Definition model_from_desc (model_desc : pyval) : M W pyval :=
  call "Model" [model_desc]
       [("droppath", VBool true); ("affine", VBool true)].

Definition model_from_factory (model_factory_spec dataset_name : pyval)
  : M W pyval :=
  let* splitted := lift (str_rsplit1 model_factory_spec) in
  let function_name := List.last splitted "" in
  let* module_name :=
    if (1 <? length splitted)%nat then ret (List.hd "" splitted)
    else
      self_call "_default_module_name" [dataset_name; VStr function_name]
        match dataset_name with
        | VStr dataset_name =>
            lift (_default_module_name dataset_name function_name)
        | _ => raise (AttributeError "startswith")
        end in
  let* module :=
    if truthy (VStr module_name)
    then call "importlib.import_module" [VStr module_name] []
    else call "sys.modules[__name__]" [] [] in
  let* function := call "getattr" [module; VStr function_name] [] in
  let* model := call "function()" [function] [] in
  let* params := call "ml_utils.param_size" [model] [] in
  let* _ :=
    call "logger.info"
      [VConf (<["model_factory" := VBool true]>
              (<["module_name" := VStr module_name]>
               (<["function_name" := VStr function_name]>
                {["params" := params]})))] [] in
  ret model.

Definition create_model
    (conf_eval model_desc_builder final_desc_filename full_desc_filename
     : pyval) : M W pyval :=
  let* (dataset_name, final_desc_filename, full_desc_filename,
        model_factory_spec, conf_model_desc) :=
    lift (create_model_conf_vars conf_eval final_desc_filename
            full_desc_filename) in
  if truthy model_factory_spec then
    self_call "model_from_factory" [model_factory_spec; dataset_name]
      (model_from_factory model_factory_spec dataset_name)
  else
    let* template_model_desc :=
      call "ModelDesc.load" [final_desc_filename] [] in
    let* model_desc :=
      call "model_desc_builder.build" [model_desc_builder; conf_model_desc]
           [("template", template_model_desc)] in
    let* _ := call "model_desc.save" [model_desc; full_desc_filename] [] in
    let* model :=
      self_call "model_from_desc" [model_desc]
        (model_from_desc model_desc) in
    let* desc := call "getattr" [model; VStr "desc"] [] in
    let* cell_descs := call "cell_descs" [desc] [] in
    let* cells_len := call "len" [cell_descs] [] in
    let* init_node_ch := lift (getitem conf_model_desc "init_node_ch") in
    let* n_cells := lift (getitem conf_model_desc "n_cells") in
    let* n_reductions := lift (getitem conf_model_desc "n_reductions") in
    let* n_nodes := lift (getitem conf_model_desc "n_nodes") in
    let* _ :=
      call "logger.info"
        [VConf (<["model_factory" := VBool false]>
                (<["cells_len" := cells_len]>
                 (<["init_node_ch" := init_node_ch]>
                  (<["n_cells" := n_cells]>
                   (<["n_reductions" := n_reductions]>
                    {["n_nodes" := n_nodes]})))))] [] in
    ret model.

Definition train_model (conf_train model checkpoint : pyval) : M W pyval :=
  let* conf_loader := lift (getitem conf_train "loader") in
  let* conf_train := lift (getitem conf_train "trainer") in
  let* got := call "data.get_data" [conf_loader] [] in
  let* (train_dl, _, test_dl) := lift (unpack3 got) in
  let* _ := assert_ (is_not_None train_dl && is_not_None test_dl) in
  let* trainer := call "Trainer" [conf_train; model; checkpoint] [] in
  let* train_metrics := call "trainer.fit" [trainer; train_dl; test_dl] [] in
  ret train_metrics.

Definition evaluate (conf_eval model_desc_builder : pyval) : M W pyval :=
  let* _ := call "logger.pushd" [VStr "eval_arch"] [] in
  let* conf_checkpoint := lift (getitem conf_eval "checkpoint") in
  let* resume := lift (getitem conf_eval "resume") in
  let* model_filename := lift (getitem conf_eval "model_filename") in
  let* metric_filename := lift (getitem conf_eval "metric_filename") in
  let* model :=
    self_call "create_model" [conf_eval; model_desc_builder]
      (create_model conf_eval model_desc_builder VNone VNone) in
  let* checkpoint :=
    call "nas_utils.create_checkpoint" [conf_checkpoint; resume] [] in
  let* train_metrics :=
    self_call "train_model" [conf_eval; model; checkpoint]
      (train_model conf_eval model checkpoint) in
  let* _ := call "train_metrics.save" [train_metrics; metric_filename] [] in
  let* model_filename :=
    if truthy model_filename then
      let* model_filename := call "utils.full_path" [model_filename] [] in
      let* _ := call "ml_utils.save_model" [model; model_filename] [] in
      ret model_filename
    else ret model_filename in
  let* _ :=
    call "logger.info" [VConf {["model_save_path" := model_filename]}] [] in
  let* _ := call "logger.popd" [] [] in
  ret train_metrics.

End Evaluater.

(** ** A concrete world *)

(** Description files by path, and a counter for the identity of the
    objects the collaborators create. *)
Record store : Type := Store { files : gmap string pyval; next_id : N }.

(** Modelled from the spec: [ModelDesc.load] and [ModelDesc.save] are code
    of [archai.nas.model_desc], which this file only calls.  [load] reads
    the description stored under a path and fails when there is none;
    [save] persists the description under the path, overwriting what is
    there.  [data.get_data] and the factory function answer as given; every
    other collaborator returns a new object. *)
Definition store_ext (get_data : pyval) (factory : exn + pyval)
  : oracle store :=
  fun callee args kwargs w =>
    if (callee =? "ModelDesc.load")%string then
      match args with
      | [VStr path] =>
          match files w !! path with
          | Some d => (inr d, w)
          | None => (inl (PyExn "FileNotFoundError" path None), w)
          end
      | _ => (inl (TypeError "load"), w)
      end
    else if (callee =? "model_desc.save")%string then
      match args with
      | [d; VStr path] =>
          (inr (VStr path), Store (<[path := d]> (files w)) (next_id w))
      | _ => (inr VNone, w)
      end
    else if (callee =? "data.get_data")%string then (inr get_data, w)
    else if (callee =? "function()")%string then (factory, w)
    else (inr (VObj (next_id w)), Store (files w) (N.succ (next_id w))).

(** The description configuration of the demonstration runs. *)
Definition demo_model_desc : pyval :=
  VConf (<["init_node_ch" := VInt 36]>
         (<["n_cells" := VInt 20]>
          (<["n_reductions" := VInt 2]>
           {["n_nodes" := VInt 4]}))).

Definition demo_loader (name : pyval) : pyval :=
  VConf {["dataset" := VConf {["name" := name]}]}.

(** The entries of an evaluation configuration over dataset [name], with
    the two description paths, the factory spec and the model output
    path. *)
Definition demo_entries (name final full spec model_filename : pyval)
  : gmap string pyval :=
  <["loader" := demo_loader name]>
  (<["trainer" := VConf ∅]>
   (<["checkpoint" := VConf ∅]>
    (<["resume" := VBool true]>
     (<["model_filename" := model_filename]>
      (<["metric_filename" := VStr "metrics.yaml"]>
       (<["final_desc_filename" := final]>
        (<["full_desc_filename" := full]>
         (<["model_factory_spec" := spec]>
          {["model_desc" := demo_model_desc]})))))))).

Definition demo_conf (name final full spec model_filename : pyval) : pyval :=
  VConf (demo_entries name final full spec model_filename).

(** Evaluation from a description, the full description written over the
    final one, no model file. *)
Definition desc_conf : pyval :=
  demo_conf (VStr "cifar10") (VStr "final.yaml") (VStr "final.yaml")
    (VStr "") (VStr "").

(** Evaluation of a factory model, saved to [model.pt]. *)
Definition factory_conf : pyval :=
  demo_conf (VStr "cifar10") (VStr "final.yaml") (VStr "full.yaml")
    (VStr "archai.cifar10_models.resnet.resnet34") (VStr "model.pt").

Definition both_iterators : pyval := VTuple [VObj 100; VNone; VObj 101].

(** ** Runs *)

Definition outcome_of {W A} (run : (exn + A) * W * trace) : exn + A :=
  fst (fst run).
Definition world_of {W A} (run : (exn + A) * W * trace) : W :=
  snd (fst run).
Definition trace_of {W A} (run : (exn + A) * W * trace) : trace :=
  snd run.

(** ** Trace predicates *)

Definition is_self_call (method : string) (ev : event) : bool :=
  match ev with
  | SelfCall m _ => (m =? method)%string
  | Ext _ _ _ _ => false
  end.

Definition is_ext_call (callee : string) (ev : event) : bool :=
  match ev with
  | SelfCall _ _ => false
  | Ext c _ _ _ => (c =? callee)%string
  end.

(** The method was called on [self] during the run. *)
Definition calls_method (method : string) (t : trace) : bool :=
  existsb (is_self_call method) t.

(** The collaborator was called during the run. *)
Definition calls_ext (callee : string) (t : trace) : bool :=
  existsb (is_ext_call callee) t.

(** What the run did after its first call of the collaborator. *)
Fixpoint after_call (callee : string) (t : trace) : trace :=
  match t with
  | [] => []
  | ev :: t' => if is_ext_call callee ev then t' else after_call callee t'
  end.




(** A world with one description file, [final.yaml]. *)
Definition demo_world : store := Store {["final.yaml" := VObj 7]} 0.

(** Collaborators over [demo_world]: one whose factory function returns a
    model, one whose factory function raises. *)
Definition demo_ext : oracle store := store_ext both_iterators (inr (VObj 55)).

Definition boom : exn := PyExn "RuntimeError" "boom" None.

Definition failing_factory_ext : oracle store :=
  store_ext both_iterators (inl boom).

(** The run of a factory whose function raises. *)
Definition failed_construction : (exn + pyval) * store * trace :=
  model_from_factory failing_factory_ext
    (VStr "torchvision.models.resnet34") (VStr "imagenet") demo_world.

(** Collaborators whose data loader has no test iterator. *)
Definition no_test_iterator_ext : oracle store :=
  store_ext (VTuple [VObj 100; VNone; VNone]) (inr (VObj 55)).

(** A configuration whose description paths are not those of any file, and
    the same configuration without the two keys. *)
Definition stray_entries : gmap string pyval :=
  demo_entries (VStr "cifar10") (VStr "stray.yaml") (VStr "stray_full.yaml")
    (VStr "") (VStr "").


(** The calls that train and persist, which follow the making of the
    model in [evaluate]. *)
Definition training_calls : list string :=
  ["nas_utils.create_checkpoint"; "data.get_data"; "Trainer"; "trainer.fit";
   "train_metrics.save"; "utils.full_path"; "ml_utils.save_model"].

(** One of the collaborators was called during the run. *)
Definition calls_any (callees : list string) (t : trace) : bool :=
  existsb (fun ev => existsb (fun c => is_ext_call c ev) callees) t.

(** ** What the runs are shown to do *)


(** What [train_model] does once [data.get_data] has returned the
    iterators [a] (train) and [c] (test). *)
Definition asserts_iterators {W} (conf_train model checkpoint a c : pyval)
    (run : (exn + pyval) * W * trace) : Prop :=
  if is_not_None a && is_not_None c
  then exists conf_trainer o rest,
         getitem conf_train "trainer" = inr conf_trainer
         /\ after_call "data.get_data" (trace_of run)
            = Ext "Trainer" [conf_trainer; model; checkpoint] [] o :: rest
         /\ (forall e, o = inl e -> outcome_of run = inl e)
         /\ (forall trainer, o = inr trainer ->
               exists o',
                 rest = [Ext "trainer.fit" [trainer; a; c] [] o']
                 /\ outcome_of run = o')
  else outcome_of run = inl AssertionError
       /\ after_call "data.get_data" (trace_of run) = []
       /\ calls_ext "Trainer" (trace_of run) = false.


(** ** Failures in a trace *)

(** The collaborator call raised. *)
Definition is_failure (ev : event) : bool :=
  match ev with
  | Ext _ _ _ (inl _) => true
  | _ => false
  end.

(** No recovery: a collaborator call that raises is the last event of the
    trace, and what it raised is the outcome [r] of the run. *)
Fixpoint propagates {A} (r : exn + A) (t : trace) : Prop :=
  match t with
  | [] => True
  | Ext _ _ _ (inl e) :: t' => t' = [] /\ r = inl e
  | _ :: t' => propagates r t'
  end.

(** The record that [model_from_factory] logs. *)
Definition factory_record (module_name function_name : string)
    (params : pyval) : pyval :=
  VConf (<["model_factory" := VBool true]>
         (<["module_name" := VStr module_name]>
          (<["function_name" := VStr function_name]>
           {["params" := params]}))).

(** The keys of the description configuration that the log record of
    the description-based path reads. *)
Definition record_keys : list string :=
  ["init_node_ch"; "n_cells"; "n_reductions"; "n_nodes"].

(** The keys that [evaluate] reads before it makes the model. *)
Definition evaluate_keys : list string :=
  ["checkpoint"; "resume"; "model_filename"; "metric_filename"].

(** The configuration lacks one of the keys (or cannot be subscripted). *)
Definition lacks_key (conf : pyval) (keys : list string) : Prop :=
  exists key e, In key keys /\ getitem conf key = inl e.

(** The calls that open and close the logger scope of [evaluate]. *)
Definition scope_calls : list string := ["logger.pushd"; "logger.popd"].

(** The model was made during the run: by the [Model] constructor or by a
    factory function. *)
Definition made_in (model : pyval) (t : trace) : Prop :=
  (exists desc kwargs, In (Ext "Model" [desc] kwargs (inr model)) t)
  \/ (exists function, In (Ext "function()" [function] [] (inr model)) t).

(** ** Further demonstration runs *)

(** The making of a model from a factory spec with a module part. *)
Definition factory_run : (exn + pyval) * store * trace :=
  model_from_factory demo_ext (VStr "archai.cifar10_models.resnet.resnet34")
    (VStr "cifar10") demo_world.

(** An evaluation from a description. *)
Definition desc_evaluation : (exn + pyval) * store * trace :=
  evaluate demo_ext desc_conf (VObj 1) demo_world.

(** A configuration whose description configuration is empty. *)
Definition bare_desc_conf : pyval :=
  VConf (<["model_desc" := VConf ∅]>
         (demo_entries (VStr "cifar10") (VStr "final.yaml")
            (VStr "full.yaml") (VStr "") (VStr ""))).

(** A configuration without a metric filename. *)
Definition metricless_conf : pyval :=
  VConf (delete "metric_filename"
           (demo_entries (VStr "cifar10") (VStr "final.yaml")
              (VStr "full.yaml") (VStr "") (VStr ""))).

(** The event of line 129: the import of a module name that is not empty,
    the lookup of the evaluater module itself for an empty one. *)
Definition module_event (module_name : string) (o : exn + pyval) : event :=
  if truthy (VStr module_name)
  then Ext "importlib.import_module" [VStr module_name] [] o
  else Ext "sys.modules[__name__]" [] [] o.

(** The module name [model_from_factory] settles on for a spec: the part
    before the last dot, or for a spec without a dot what
    [_default_module_name] returns for the dataset name and the spec. *)
Definition module_name_of (spec : string) (dataset_name : pyval)
    (module_name function_name : string) : Prop :=
  (contains_char "." spec = true
   /\ spec = (module_name ++ "." ++ function_name)%string
   /\ contains_char "." function_name = false)
  \/ (contains_char "." spec = false
      /\ spec = function_name
      /\ exists name,
           dataset_name = VStr name
           /\ _default_module_name name function_name = inr module_name).

(** A configuration with a factory spec and without the two description
    paths. *)
Definition pathless_factory_conf : pyval :=
  VConf (delete "final_desc_filename"
           (delete "full_desc_filename"
              (demo_entries (VStr "cifar10") VNone VNone
                 (VStr "archai.cifar10_models.resnet.resnet34")
                 (VStr "model.pt")))).

(** The making of a model from a spec with two dots, and from a bare
    function name. *)
Definition dotted_run : (exn + pyval) * store * trace :=
  model_from_factory demo_ext (VStr "a.b.resnet34") (VStr "cifar10")
    demo_world.

Definition undotted_run : (exn + pyval) * store * trace :=
  model_from_factory demo_ext (VStr "resnet34") (VStr "cifar10") demo_world.

(** * Properties *)

(** ** Strings *)

Lemma startswith_app (s p : string) :
  startswith s p = true <-> exists rest, s = (p ++ rest)%string.
Proof.
  revert s; induction p as [|a p IH]; intros s; simpl.
  - split; [intros _; exists s; reflexivity | reflexivity].
  - destruct s as [|b s].
    + split; [discriminate | intros [rest H]; discriminate].
    + rewrite andb_true_iff, Ascii.eqb_eq, IH. split.
      * intros [-> [rest ->]]. exists rest. reflexivity.
      * intros [rest H]. injection H as -> ->. split; [reflexivity|].
        exists rest. reflexivity.
Qed.

Lemma rpartition_None (sep : ascii) (s : string) :
  rpartition sep s = None <-> contains_char sep s = false.
Proof.
  induction s as [|a s IH]; simpl.
  - split; reflexivity.
  - rewrite orb_false_iff, <- IH.
    destruct (rpartition sep s) as [[b f]|]; destruct (Ascii.eqb a sep);
      split; intros H; try discriminate; try (destruct H; discriminate);
      auto.
Qed.

Lemma rpartition_Some (sep : ascii) (s before after : string) :
  rpartition sep s = Some (before, after) ->
  s = (before ++ String sep after)%string /\ contains_char sep after = false.
Proof.
  revert before after; induction s as [|a s IH]; simpl; intros b f H.
  - discriminate.
  - destruct (rpartition sep s) as [[b' f']|] eqn:E.
    + injection H as <- <-. destruct (IH _ _ eq_refl) as [-> Hf].
      split; [reflexivity | exact Hf].
    + destruct (Ascii.eqb a sep) eqn:Ea; [|discriminate].
      injection H as <- <-. apply Ascii.eqb_eq in Ea. subst a.
      split; [reflexivity | apply rpartition_None; exact E].
Qed.

Lemma rpartition_is_Some (sep : ascii) (s : string) :
  contains_char sep s = true ->
  exists before after, rpartition sep s = Some (before, after).
Proof.
  intros H. destruct (rpartition sep s) as [[b f]|] eqn:E.
  - exists b, f. reflexivity.
  - apply rpartition_None in E. congruence.
Qed.

(** The cut is the only one that leaves no separator to its right. *)
Lemma last_cut_unique (sep : ascii) (m1 f1 m2 f2 : string) :
  contains_char sep f1 = false -> contains_char sep f2 = false ->
  (m1 ++ String sep f1 = m2 ++ String sep f2)%string ->
  m1 = m2 /\ f1 = f2.
Proof.
  revert m2; induction m1 as [|a m1 IH]; intros m2 H1 H2 E.
  - destruct m2 as [|b m2]; simpl in E.
    + injection E as ->. split; reflexivity.
    + injection E as <- ->. exfalso. clear -H1.
      induction m2 as [|c m2 IH]; simpl in H1.
      * rewrite Ascii.eqb_refl in H1. discriminate.
      * apply orb_false_iff in H1. tauto.
  - destruct m2 as [|b m2]; simpl in E.
    + injection E as -> <-. exfalso. clear -H2.
      induction m1 as [|c m1 IH]; simpl in H2.
      * rewrite Ascii.eqb_refl in H2. discriminate.
      * apply orb_false_iff in H2. tauto.
    + injection E as -> E. destruct (IH m2 H1 H2 E) as [-> ->].
      split; reflexivity.
Qed.

(** ** The default module *)

Lemma cifar_not_imagenet (s : string) :
  startswith s "cifar" = true ->
  startswith s "imagenet" || startswith s "sport8" = false.
Proof.
  intros H. apply startswith_app in H as [rest ->]. reflexivity.
Qed.

Lemma res_not_dense (s : string) :
  startswith s "res" = true -> startswith s "dense" = false.
Proof.
  intros H. apply startswith_app in H as [rest ->]. reflexivity.
Qed.

(** A module name that is returned is never the empty string. *)
Lemma default_module_name_truthy (dataset_name function_name m : string) :
  _default_module_name dataset_name function_name = inr m ->
  truthy (VStr m) = true.
Proof.
  unfold _default_module_name.
  destruct (startswith dataset_name "cifar");
    [destruct (startswith function_name "res");
     [|destruct (startswith function_name "dense")]
    |destruct (startswith dataset_name "imagenet"
               || startswith dataset_name "sport8")];
    simpl; intros H; inversion H; reflexivity.
Qed.

(** C2.  [_default_module_name] returns the resnet module for a cifar
    dataset and a function name starting with "res", the densenet module
    for a cifar dataset and a function name starting with "dense",
    [torchvision.models] for an imagenet or sport8 dataset whatever the
    function name, and in every other case raises [NotImplementedError]
    (the spec's UnsupportedConfiguration) with a message that spells out
    the function name and the dataset name. *)
Theorem default_module_name_cases (dataset_name function_name : string) :
  (startswith dataset_name "cifar" = true ->
   startswith function_name "res" = true ->
   _default_module_name dataset_name function_name
   = inr "archai.cifar10_models.resnet")
  /\ (startswith dataset_name "cifar" = true ->
      startswith function_name "dense" = true ->
      _default_module_name dataset_name function_name
      = inr "archai.cifar10_models.densenet")
  /\ (startswith dataset_name "imagenet" = true
      \/ startswith dataset_name "sport8" = true ->
      _default_module_name dataset_name function_name
      = inr "torchvision.models")
  /\ (~ (startswith dataset_name "cifar" = true
         /\ startswith function_name "res" = true) ->
      ~ (startswith dataset_name "cifar" = true
         /\ startswith function_name "dense" = true) ->
      ~ (startswith dataset_name "imagenet" = true
         \/ startswith dataset_name "sport8" = true) ->
      _default_module_name dataset_name function_name
      = inl (PyExn "NotImplementedError"
               ("Cannot get default module for " ++ function_name
                ++ " and dataset " ++ dataset_name
                ++ " because it is not supported yet") None)).
Proof.
  unfold _default_module_name. repeat split.
  - intros Hc Hr. rewrite Hc, Hr. reflexivity.
  - intros Hc Hd. rewrite Hc, Hd.
    destruct (startswith function_name "res") eqn:Hr.
    + apply res_not_dense in Hr. congruence.
    + reflexivity.
  - intros Hi.
    destruct (startswith dataset_name "cifar") eqn:Hc.
    + apply cifar_not_imagenet in Hc. apply orb_false_iff in Hc.
      destruct Hc, Hi; congruence.
    + destruct Hi as [-> | ->]; [|rewrite orb_true_r]; reflexivity.
  - intros N1 N2 N3.
    destruct (startswith dataset_name "cifar") eqn:Hc.
    + destruct (startswith function_name "res") eqn:Hr; [tauto|].
      destruct (startswith function_name "dense") eqn:Hd; [tauto|].
      reflexivity.
    + destruct (startswith dataset_name "imagenet") eqn:Hi; [tauto|].
      destruct (startswith dataset_name "sport8") eqn:Hs; [tauto|].
      reflexivity.
Qed.

Lemma default_module_name_cases_witness :
  _default_module_name "cifar10" "resnet18"
  = inr "archai.cifar10_models.resnet"
  /\ _default_module_name "cifar100" "densenet121"
     = inr "archai.cifar10_models.densenet"
  /\ _default_module_name "sport8" "vgg16" = inr "torchvision.models"
  /\ _default_module_name "mnist" "resnet18"
     = inl (PyExn "NotImplementedError"
              "Cannot get default module for resnet18 and dataset mnist because it is not supported yet"
              None).
Proof.
  split; [|split; [|split]].
  - apply (default_module_name_cases "cifar10" "resnet18"); reflexivity.
  - apply (default_module_name_cases "cifar100" "densenet121"); reflexivity.
  - apply (default_module_name_cases "sport8" "vgg16"). right. reflexivity.
  - apply (default_module_name_cases "mnist" "resnet18").
    + intros [H _]. discriminate H.
    + intros [H _]. discriminate H.
    + intros [H | H]; discriminate H.
Defined.

(** ** The split of the factory spec *)

Lemma rsplit1_undotted (sep : ascii) (s : string) :
  contains_char sep s = false -> rsplit1 sep s = [s].
Proof.
  intros H. unfold rsplit1. apply rpartition_None in H. rewrite H.
  reflexivity.
Qed.

Lemma rsplit1_dotted (sep : ascii) (s : string) :
  contains_char sep s = true ->
  exists before after,
    rsplit1 sep s = [before; after]
    /\ s = (before ++ String sep after)%string
    /\ contains_char sep after = false.
Proof.
  intros H. destruct (rpartition_is_Some _ _ H) as (m & f & E).
  destruct (rpartition_Some _ _ _ _ E) as [Hs Hf].
  exists m, f. unfold rsplit1. rewrite E. auto.
Qed.



(** ** Runs of the methods *)

(** One step of a run: the next collaborator call or configuration read
    either raises, which ends the run, or returns. *)
Ltac unfold_run :=
  cbv beta iota zeta delta
    [bind ret raise lift emit call self_call assert_ and_then
     model_from_desc outcome_of world_of trace_of fst snd app].

Ltac step_run :=
  unfold_run;
  match goal with
  | |- context [?ext ?c ?a ?k ?w] =>
      match type of ext with
      | oracle _ =>
          let E := fresh "E" in
          destruct (ext c a k w) as [[?e | ?v] ?w] eqn:E
      end
  | |- context [getitem ?c ?k] =>
      let E := fresh "G" in destruct (getitem c k) as [?e | ?v] eqn:E
  end.

Ltac in_trace H :=
  cbn [In] in H;
  repeat (destruct H as [H | H]; [try discriminate H |]);
  try contradiction.

(** The shape of a trace: the next event, and what follows when the call
    returned. *)
Ltac trace_shape :=
  repeat match goal with
    | |- exists _, _ => eexists
    | |- _ /\ _ => split
    | |- forall _, _ = _ -> _ =>
        let H := fresh in intros ? H; inversion H; subst; clear H
    | |- _ = _ => first [reflexivity | eassumption]
    end.

Lemma calls_ext_In (callee : string) (args : list pyval)
    (kwargs : list (string * pyval)) (o : exn + pyval) (t : trace) :
  In (Ext callee args kwargs o) t -> calls_ext callee t = true.
Proof.
  intros H. apply existsb_exists. exists (Ext callee args kwargs o).
  split; [exact H | apply String.eqb_refl].
Qed.

Lemma calls_any_each (callees : list string) (callee : string) (t : trace) :
  calls_any callees t = false -> In callee callees ->
  calls_ext callee t = false.
Proof.
  unfold calls_any, calls_ext. intros H Hin.
  induction t as [|ev t IH]; [reflexivity|].
  cbn [existsb] in *. apply orb_false_iff in H as [Hev Ht].
  rewrite (IH Ht), orb_false_r.
  destruct (is_ext_call callee ev) eqn:E; [|reflexivity].
  rewrite <- Hev. symmetry. apply existsb_exists. exists callee. auto.
Qed.

Lemma calls_any_app (callees : list string) (t1 t2 : trace) :
  calls_any callees (t1 ++ t2)
  = calls_any callees t1 || calls_any callees t2.
Proof. apply existsb_app. Qed.

Lemma after_call_skip (callee : string) (t1 t2 : trace) :
  calls_ext callee t1 = false ->
  after_call callee (t1 ++ t2) = after_call callee t2.
Proof.
  unfold calls_ext. induction t1 as [|ev t1 IH]; [reflexivity|].
  cbn [existsb app after_call]. intros H.
  apply orb_false_iff in H as [-> H]. exact (IH H).
Qed.

Section ModelFromFactory.
Context {W : Type} (ext : oracle W).


(** Nor does it train or persist anything. *)
Lemma model_from_factory_no_training (spec dataset_name : pyval) (w : W) :
  calls_any training_calls
    (trace_of (model_from_factory ext spec dataset_name w)) = false.
Proof.
  unfold model_from_factory.
  destruct spec as [| | |s| | |]; try reflexivity.
  cbn [str_rsplit1]. unfold_run.
  destruct (1 <? length (rsplit1 "." s))%nat.
  - destruct (truthy (VStr (List.hd "" (rsplit1 "." s))));
      repeat step_run; reflexivity.
  - destruct dataset_name as [| | |ds| | |]; try reflexivity.
    destruct (_default_module_name ds (List.last (rsplit1 "." s) ""))
      as [e | m] eqn:Em; [reflexivity|].
    rewrite (default_module_name_truthy _ _ _ Em).
    repeat step_run; reflexivity.
Qed.

(** C9.  A spec whose split leaves an empty module part before its dot
    is resolved without the default-module resolver and without an
    import: the function is looked up on the evaluater module itself,
    whatever the dataset name is. *)
Theorem empty_module_part_uses_own_module
    (spec function_name : string) (dataset_name : pyval) (w : W) :
  rsplit1 "." spec = [""; function_name] ->
  let t := trace_of (model_from_factory ext (VStr spec) dataset_name w) in
  calls_method "_default_module_name" t = false
  /\ calls_ext "importlib.import_module" t = false
  /\ exists o rest,
       t = Ext "sys.modules[__name__]" [] [] o :: rest
       /\ forall module, o = inr module ->
            exists o' rest',
              rest = Ext "getattr" [module; VStr function_name] [] o'
                     :: rest'.
Proof.
  intros H. unfold model_from_factory. cbn [str_rsplit1]. rewrite H.
  unfold_run.
  cbn [List.last List.hd length Nat.ltb Nat.leb truthy String.eqb negb].
  repeat step_run;
    (split; [reflexivity | split; [reflexivity |]]);
    do 2 eexists; (split; [reflexivity |]);
    intros module Hm; inversion Hm; subst; do 2 eexists; reflexivity.
Qed.

(** C1, amended.  A spec without a dot is the function name; the module
    name comes from [_default_module_name], called with the dataset name
    and that function name, and the module it returns is the one
    imported.  When the resolver raises, its exception is the outcome
    and nothing is imported. *)
Theorem undotted_spec_default_module (spec dataset_name : string) (w : W) :
  contains_char "." spec = false ->
  let run := model_from_factory ext (VStr spec) (VStr dataset_name) w in
  match _default_module_name dataset_name spec with
  | inr module_name =>
      exists o rest,
        trace_of run
        = SelfCall "_default_module_name" [VStr dataset_name; VStr spec]
          :: Ext "importlib.import_module" [VStr module_name] [] o :: rest
  | inl e =>
      run = (inl e, w,
             [SelfCall "_default_module_name"
                [VStr dataset_name; VStr spec]])
  end.
Proof.
  intros H. unfold model_from_factory. cbn [str_rsplit1].
  rewrite (rsplit1_undotted _ _ H).
  unfold_run. cbn [List.last List.hd length Nat.ltb Nat.leb].
  destruct (_default_module_name dataset_name spec) as [e | m] eqn:Em.
  - reflexivity.
  - rewrite (default_module_name_truthy _ _ _ Em).
    repeat step_run; do 2 eexists; reflexivity.
Qed.

(** C4, amended.  When the call of the factory function raises, the
    exception it raised is the outcome of [model_from_factory], as it is:
    nothing wraps it, and nothing runs after the failed call. *)
Theorem construction_failure_propagates
    (spec dataset_name function : pyval) (e : exn) (w : W) :
  In (Ext "function()" [function] [] (inl e))
     (trace_of (model_from_factory ext spec dataset_name w)) ->
  outcome_of (model_from_factory ext spec dataset_name w) = inl e
  /\ after_call "function()"
       (trace_of (model_from_factory ext spec dataset_name w)) = [].
Proof.
  unfold model_from_factory.
  destruct spec as [| | |s| | |]; cbn [str_rsplit1]; unfold_run;
    try solve [intros H; in_trace H].
  destruct (1 <? length (rsplit1 "." s))%nat.
  - destruct (truthy (VStr (List.hd "" (rsplit1 "." s))));
      repeat step_run; intros H; in_trace H;
      inversion H; subst; split; reflexivity.
  - destruct dataset_name as [| | |ds| | |]; unfold_run;
      try solve [intros H; in_trace H].
    destruct (_default_module_name ds (List.last (rsplit1 "." s) ""))
      as [e' | m] eqn:Em; [solve [intros H; in_trace H]|].
    rewrite (default_module_name_truthy _ _ _ Em).
    repeat step_run; intros H; in_trace H;
      inversion H; subst; split; reflexivity.
Qed.

End ModelFromFactory.

Section FactorySplit.
Context {W : Type} (ext : oracle W).

(** C3.  [model_from_factory] splits a spec with a dot at its last dot:
    the module part is what stands before it and the function name what
    stands after it, the function name holds no dot and no other cut of
    the spec at a dot has that property; the run consults no resolver,
    turns to the module of that module part and looks up that function
    name on it.  For a spec without a dot the split has one element, the
    whole spec is the function name, which the run passes to the
    default-module resolver and to every lookup, and there is no module
    part. *)
Theorem factory_spec_split (spec : string) (dataset_name : pyval) (w : W) :
  (contains_char "." spec = true ->
   exists module_part function_name,
     spec = (module_part ++ "." ++ function_name)%string
     /\ contains_char "." function_name = false
     /\ (forall m f : string,
           spec = (m ++ "." ++ f)%string -> contains_char "." f = false ->
           m = module_part /\ f = function_name)
     /\ str_rsplit1 (VStr spec) = inr [module_part; function_name]
     /\ calls_method "_default_module_name"
          (trace_of (model_from_factory ext (VStr spec) dataset_name w))
        = false
     /\ exists o rest,
          trace_of (model_from_factory ext (VStr spec) dataset_name w)
          = module_event module_part o :: rest
          /\ forall module, o = inr module ->
               exists o' rest',
                 rest = Ext "getattr" [module; VStr function_name] [] o'
                        :: rest')
  /\ (contains_char "." spec = false ->
      str_rsplit1 (VStr spec) = inr [spec]
      /\ (exists rest,
            trace_of (model_from_factory ext (VStr spec) dataset_name w)
            = SelfCall "_default_module_name" [dataset_name; VStr spec]
              :: rest)
      /\ forall module function_name o,
           In (Ext "getattr" [module; VStr function_name] [] o)
              (trace_of (model_from_factory ext (VStr spec) dataset_name w)) ->
           function_name = spec).
Proof.
  split; intros Hdot.
  - destruct (rsplit1_dotted _ _ Hdot) as (m & f & E & Hs & Hf).
    exists m, f. split; [exact Hs|]. split; [exact Hf|].
    split.
    { intros m' f' Hs' Hf'. rewrite Hs in Hs'.
      destruct (last_cut_unique "." m f m' f' Hf Hf' Hs') as [-> ->].
      split; reflexivity. }
    split; [cbn [str_rsplit1]; rewrite E; reflexivity|].
    unfold model_from_factory, module_event. cbn [str_rsplit1]. rewrite E.
    unfold_run. cbn [List.last List.hd length Nat.ltb Nat.leb].
    destruct (truthy (VStr m));
      repeat step_run; (split; [reflexivity|]); trace_shape.
  - split; [cbn [str_rsplit1]; rewrite (rsplit1_undotted _ _ Hdot);
            reflexivity|].
    unfold model_from_factory. cbn [str_rsplit1].
    rewrite (rsplit1_undotted _ _ Hdot). unfold_run.
    cbn [List.last List.hd length Nat.ltb Nat.leb].
    destruct dataset_name as [| | |ds| | |]; unfold_run;
      try solve [split; [eexists; reflexivity | intros ? ? ? H; in_trace H]].
    destruct (_default_module_name ds spec) as [e | m] eqn:Em;
      [solve [split; [eexists; reflexivity | intros ? ? ? H; in_trace H]]|].
    rewrite (default_module_name_truthy _ _ _ Em).
    repeat step_run;
      (split; [eexists; reflexivity
              | intros ? ? ? H; in_trace H; inversion H; reflexivity]).
Qed.

End FactorySplit.

Lemma factory_spec_split_witness :
  (exists module_part function_name,
     "a.b.resnet34" = (module_part ++ "." ++ function_name)%string
     /\ contains_char "." function_name = false
     /\ (forall m f : string,
           "a.b.resnet34" = (m ++ "." ++ f)%string ->
           contains_char "." f = false ->
           m = module_part /\ f = function_name)
     /\ str_rsplit1 (VStr "a.b.resnet34") = inr [module_part; function_name]
     /\ calls_method "_default_module_name" (trace_of dotted_run) = false
     /\ exists o rest,
          trace_of dotted_run = module_event module_part o :: rest
          /\ forall module, o = inr module ->
               exists o' rest',
                 rest = Ext "getattr" [module; VStr function_name] [] o'
                        :: rest')
  /\ (str_rsplit1 (VStr "resnet34") = inr ["resnet34"]
      /\ (exists rest,
            trace_of undotted_run
            = SelfCall "_default_module_name"
                [VStr "cifar10"; VStr "resnet34"] :: rest)
      /\ forall module function_name o,
           In (Ext "getattr" [module; VStr function_name] [] o)
              (trace_of undotted_run) ->
           function_name = "resnet34").
Proof.
  split.
  - apply (factory_spec_split demo_ext "a.b.resnet34" (VStr "cifar10")
             demo_world).
    reflexivity.
  - apply (factory_spec_split demo_ext "resnet34" (VStr "cifar10")
             demo_world).
    reflexivity.
Defined.

Lemma empty_module_part_uses_own_module_witness :
  rsplit1 "." ".resnet34" = [""; "resnet34"]
  /\ let t := trace_of (model_from_factory demo_ext (VStr ".resnet34")
                          (VStr "cifar10") demo_world) in
     calls_method "_default_module_name" t = false
     /\ calls_ext "importlib.import_module" t = false
     /\ exists o rest,
          t = Ext "sys.modules[__name__]" [] [] o :: rest
          /\ forall module, o = inr module ->
               exists o' rest',
                 rest = Ext "getattr" [module; VStr "resnet34"] [] o'
                        :: rest'.
Proof.
  split; [reflexivity|].
  apply (empty_module_part_uses_own_module demo_ext ".resnet34" "resnet34"
           (VStr "cifar10") demo_world).
  reflexivity.
Defined.

(** C1 fails on the code: the module part of [".resnet34"] is empty, and
    the run neither calls the default-module resolver nor imports. *)
Lemma empty_module_part_not_resolved :
  ~ (List.hd "" (rsplit1 "." ".resnet34") = "" ->
     let t := trace_of (model_from_factory demo_ext (VStr ".resnet34")
                          (VStr "cifar10") demo_world) in
     calls_method "_default_module_name" t = true
     /\ calls_ext "importlib.import_module" t = true).
Proof.
  intros H. destruct (H eq_refl) as [Hcall _].
  vm_compute in Hcall. discriminate Hcall.
Qed.

Lemma undotted_spec_default_module_witness :
  contains_char "." "resnet34" = false
  /\ exists o rest,
       trace_of (model_from_factory demo_ext (VStr "resnet34")
                   (VStr "cifar10") demo_world)
       = SelfCall "_default_module_name" [VStr "cifar10"; VStr "resnet34"]
         :: Ext "importlib.import_module"
              [VStr "archai.cifar10_models.resnet"] [] o :: rest.
Proof.
  split; [reflexivity|].
  apply (undotted_spec_default_module demo_ext "resnet34" "cifar10"
           demo_world).
  reflexivity.
Defined.

(** C4 fails on the code: the factory function raises a [RuntimeError],
    and what [model_from_factory] raises is that exception, not a
    ModelConstructionFailed error with the [RuntimeError] as its cause. *)
Lemma construction_failure_not_wrapped :
  In (Ext "function()" [VObj 1] [] (inl boom)) (trace_of failed_construction)
  /\ ~ (exists e, outcome_of failed_construction = inl e
                  /\ exn_cls e = "ModelConstructionFailed"
                  /\ exn_cause e = Some boom).
Proof.
  split.
  - apply (nth_error_In _ 2). vm_compute. reflexivity.
  - intros (e & He & Hcls & _). vm_compute in He.
    injection He as <-. discriminate Hcls.
Qed.

Lemma construction_failure_propagates_witness :
  outcome_of failed_construction = inl boom
  /\ after_call "function()" (trace_of failed_construction) = [].
Proof.
  apply (construction_failure_propagates failing_factory_ext
           (VStr "torchvision.models.resnet34") (VStr "imagenet")
           (VObj 1) boom demo_world).
  apply (nth_error_In _ 2). vm_compute. reflexivity.
Defined.

Section CreateModel.
Context {W : Type} (ext : oracle W).

(** The making of the model neither trains nor persists results. *)
Lemma create_model_no_training
    (conf_eval builder final full : pyval) (w : W) :
  calls_any training_calls
    (trace_of (create_model ext conf_eval builder final full w)) = false.
Proof.
  unfold create_model. unfold_run.
  destruct (create_model_conf_vars conf_eval final full)
    as [e | [[[[ds fin] ful] spec] cmd]]; [reflexivity|].
  destruct (truthy spec).
  - pose proof (model_from_factory_no_training ext spec ds w) as Hf.
    destruct (model_from_factory ext spec ds w) as [[r w'] t'].
    exact Hf.
  - repeat step_run; reflexivity.
Qed.





End CreateModel.

Section TrainModel.
Context {W : Type} (ext : oracle W).

(** C8.  Once [data.get_data] has returned its three iterators, the run
    goes on to the trainer only when the train and the test iterator
    are both present: then the assertion passes, the next call
    constructs the [Trainer] and the outcome is that of the trainer.
    When one of them is [None], the outcome is the [AssertionError],
    raised before any [Trainer] is constructed, and nothing follows. *)
Theorem train_model_asserts_iterators
    (conf_train model checkpoint conf_loader a b c : pyval) (w : W) :
  In (Ext "data.get_data" [conf_loader] [] (inr (VTuple [a; b; c])))
     (trace_of (train_model ext conf_train model checkpoint w)) ->
  asserts_iterators conf_train model checkpoint a c
    (train_model ext conf_train model checkpoint w).
Proof.
  unfold asserts_iterators, train_model. unfold_run.
  repeat step_run; try solve [intros H; in_trace H; inversion H].
  match goal with
  | |- context [unpack3 ?got] =>
      destruct got as [| | | |[|x [|y [|z [|]]]]| |]
  end; cbn [unpack3]; unfold_run;
    try solve [intros H; in_trace H; inversion H].
  destruct (is_not_None x && is_not_None z) eqn:Hxz; unfold_run.
  - repeat step_run; intros H; in_trace H; inversion H; subst;
      rewrite Hxz; trace_shape.
  - intros H; in_trace H; inversion H; subst. rewrite Hxz.
    repeat split.
Qed.

End TrainModel.

Lemma quiet_not_In (callees : list string) (callee : string)
    (args : list pyval) (kwargs : list (string * pyval)) (o : exn + pyval)
    (t : trace) :
  calls_any callees t = false -> In callee callees ->
  ~ In (Ext callee args kwargs o) t.
Proof.
  intros Hq Hin H. apply calls_ext_In in H.
  rewrite (calls_any_each _ _ _ Hq Hin) in H. discriminate H.
Qed.

Lemma calls_ext_app (callee : string) (t1 t2 : trace) :
  calls_ext callee (t1 ++ t2) = calls_ext callee t1 || calls_ext callee t2.
Proof. apply existsb_app. Qed.



Ltac unfold_eval :=
  cbv beta iota zeta delta
    [bind ret raise lift emit call self_call assert_ and_then
     outcome_of world_of trace_of fst snd];
  cbn [app].

Ltac step_eval :=
  unfold_eval;
  match goal with
  | |- context [?ext ?c ?a ?k ?w] =>
      match type of ext with
      | oracle _ =>
          let E := fresh "E" in
          destruct (ext c a k w) as [[?e | ?v] ?w] eqn:E
      end
  | |- context [getitem ?c ?k] =>
      let E := fresh "G" in destruct (getitem c k) as [?e | ?v] eqn:E
  end.

Ltac step_all :=
  first
    [ step_eval
    | match goal with
      | |- context [unpack3 ?got] =>
          destruct got as [| | | |[|? [|? [|? [|]]]]| |]; cbn [unpack3]
      | |- context [is_not_None ?x && is_not_None ?z] =>
          let E := fresh "N" in
          destruct (is_not_None x && is_not_None z) eqn:E
      | |- context [truthy ?v] =>
          let E := fresh "T" in destruct (truthy v) eqn:E
      end ].

(** An event of training or persisting found in a trace that starts with
    the quiet trace [t1] of the making of the model lies after it. *)
Ltac in_list := cbn [In]; repeat first [left; reflexivity | right].

Ltac in_eval Hq H :=
  cbn [In] in H;
  repeat (destruct H as [H | H]; [try discriminate H |]);
  try contradiction;
  try solve [exfalso; revert H; apply (quiet_not_In _ _ _ _ _ _ Hq);
             unfold training_calls; in_list];
  try (apply in_app_or in H; destruct H as [H | H];
       [exfalso; revert H; apply (quiet_not_In _ _ _ _ _ _ Hq);
        unfold training_calls; in_list
       | cbn [In] in H;
         repeat (destruct H as [H | H]; [try discriminate H |]);
         try contradiction]).

Section Evaluate.
Context {W : Type} (ext : oracle W).


(** X13.  The caller in this file does not catch the failed assertion either:
    when an iterator is missing, [evaluate] ends with the
    [AssertionError]. *)
Lemma evaluate_propagates_missing_iterator
    (conf_eval builder conf_loader a b c : pyval) (w : W) :
  In (Ext "data.get_data" [conf_loader] [] (inr (VTuple [a; b; c])))
     (trace_of (evaluate ext conf_eval builder w)) ->
  is_not_None a && is_not_None c = false ->
  outcome_of (evaluate ext conf_eval builder w) = inl AssertionError.
Proof.
  generalize (eq_refl (evaluate ext conf_eval builder w)).
  generalize (evaluate ext conf_eval builder w) at 2 3 4 as run.
  intros run Hrun. revert run Hrun.
  unfold evaluate, train_model.
  repeat step_eval; try solve [intros run <- H; in_trace H].
  all: match goal with
       | |- context [create_model ext ?c ?b ?f ?g ?w] =>
           pose proof (create_model_no_training ext c b f g w) as Hq;
           destruct (create_model ext c b f g w) as [[[err | made] wm] t1];
           unfold trace_of, snd in Hq
       end.
  all: repeat step_all.
  all: intros run <-; unfold_eval; intros H1 Hnone.
  all: in_eval Hq H1; inversion H1; subst; clear H1.
  all: first [reflexivity | congruence].
Qed.

End Evaluate.

(** ** The theorems at work on the demonstration runs *)




(** With the full description written to the path of the template, the
    file that held the template holds the built description after the run,
    and the model is made of that description. *)
Example desc_saved_over_template :
  let run := create_model demo_ext desc_conf (VObj 1) VNone VNone
               demo_world in
  files demo_world !! "final.yaml" = Some (VObj 7)
  /\ files (world_of run) !! "final.yaml" = Some (VObj 0)
  /\ In (Ext "Model" [VObj 0]
           [("droppath", VBool true); ("affine", VBool true)]
           (inr (VObj 1))) (trace_of run)
  /\ outcome_of run = inr (VObj 1).
Proof.
  vm_compute. repeat split. do 4 right. left. reflexivity.
Qed.


(** The description that a call with an explicit final path builds is
    saved, to the [None] that [full_desc_filename] defaults to. *)
Example explicit_final_desc_saves_to_default :
  In (Ext "model_desc.save" [VObj 0; VNone] [] (inr VNone))
     (trace_of (create_model demo_ext (VConf stray_entries) (VObj 1)
                  (VStr "final.yaml") VNone demo_world)).
Proof.
  apply (nth_error_In _ 2). vm_compute. reflexivity.
Qed.

Lemma train_model_asserts_iterators_witness :
  asserts_iterators desc_conf (VObj 2) (VObj 7) (VObj 100) (VObj 101)
    (train_model demo_ext desc_conf (VObj 2) (VObj 7) demo_world)
  /\ asserts_iterators desc_conf (VObj 2) (VObj 7) (VObj 100) VNone
       (train_model no_test_iterator_ext desc_conf (VObj 2) (VObj 7)
          demo_world).
Proof.
  split.
  - apply (train_model_asserts_iterators demo_ext desc_conf (VObj 2)
             (VObj 7) (demo_loader (VStr "cifar10")) (VObj 100) VNone
             (VObj 101) demo_world).
    vm_compute. left. reflexivity.
  - apply (train_model_asserts_iterators no_test_iterator_ext desc_conf
             (VObj 2) (VObj 7) (demo_loader (VStr "cifar10")) (VObj 100)
             VNone VNone demo_world).
    vm_compute. left. reflexivity.
Defined.


(** * Further properties of the methods *)

Lemma falsy_str_empty (s : string) : truthy (VStr s) = false -> s = "".
Proof.
  cbn [truthy]. intros H. apply negb_false_iff in H.
  apply String.eqb_eq in H. exact H.
Qed.

Lemma rsplit1_leading_sep (sep : ascii) (f : string) :
  contains_char sep f = false -> rsplit1 sep (String sep f) = [""; f].
Proof.
  intros H. unfold rsplit1. cbn [rpartition].
  apply rpartition_None in H. rewrite H, Ascii.eqb_refl. reflexivity.
Qed.

Section FactoryLookup.
Context {W : Type} (ext : oracle W).

(** X1.  What [model_from_factory] imports and looks up reassembles the
    spec: the name passed to [getattr] holds no dot, and the spec is
    either that name alone or a module part, a dot and that name, where a
    module part that is not empty is the module that was imported. *)
Theorem lookup_reassembles_spec
    (spec function_name : string) (dataset_name module : pyval)
    (o : exn + pyval) (w : W) :
  In (Ext "getattr" [module; VStr function_name] [] o)
     (trace_of (model_from_factory ext (VStr spec) dataset_name w)) ->
  contains_char "." function_name = false
  /\ ((contains_char "." spec = false /\ spec = function_name)
      \/ exists module_name,
           spec = (module_name ++ "." ++ function_name)%string
           /\ (module_name = ""
               \/ exists o',
                    In (Ext "importlib.import_module" [VStr module_name] []
                          o')
                       (trace_of (model_from_factory ext (VStr spec)
                                    dataset_name w)))).
Proof.
  unfold model_from_factory. cbn [str_rsplit1].
  destruct (contains_char "." spec) eqn:Hdot.
  - destruct (rsplit1_dotted _ _ Hdot) as (m & f & E & Hs & Hf).
    rewrite E. unfold_run.
    cbn [List.last List.hd length Nat.ltb Nat.leb].
    destruct (truthy (VStr m)) eqn:Hm;
      repeat step_run; intros H; in_trace H; inversion H; subst f;
      (split; [exact Hf | right; exists m; split; [exact Hs |]]).
    all: try (left; apply falsy_str_empty; exact Hm).
    all: right; eexists; left; reflexivity.
  - rewrite (rsplit1_undotted _ _ Hdot). unfold_run.
    cbn [List.last List.hd length Nat.ltb Nat.leb].
    destruct dataset_name as [| | |ds| | |]; unfold_run;
      try solve [intros H; in_trace H].
    destruct (_default_module_name ds spec) as [e | m] eqn:Em;
      [solve [intros H; in_trace H]|].
    rewrite (default_module_name_truthy _ _ _ Em).
    repeat step_run; intros H; in_trace H; inversion H; subst;
      (split; [exact Hdot | left; split; reflexivity]).
Qed.

(** X2.  The function is looked up on the evaluater module itself exactly
    for the specs that start with their only dot. *)
Theorem own_module_iff_leading_dot (spec dataset_name : pyval) (w : W) :
  calls_ext "sys.modules[__name__]"
    (trace_of (model_from_factory ext spec dataset_name w)) = true
  <-> exists function_name,
        spec = VStr ("." ++ function_name)
        /\ contains_char "." function_name = false.
Proof.
  split.
  - unfold model_from_factory.
    destruct spec as [| | |s| | |]; cbn [str_rsplit1]; unfold_run;
      try discriminate.
    destruct (contains_char "." s) eqn:Hdot.
    + destruct (rsplit1_dotted _ _ Hdot) as (m & f & E & Hs & Hf).
      rewrite E. cbn [List.last List.hd length Nat.ltb Nat.leb].
      destruct (truthy (VStr m)) eqn:Hm.
      * repeat step_run; discriminate.
      * intros _. apply falsy_str_empty in Hm. subst m.
        exists f. rewrite Hs. split; [reflexivity | exact Hf].
    + rewrite (rsplit1_undotted _ _ Hdot).
      cbn [List.last List.hd length Nat.ltb Nat.leb].
      destruct dataset_name as [| | |ds| | |]; unfold_run;
        try discriminate.
      destruct (_default_module_name ds s) as [e | m] eqn:Em;
        [discriminate|].
      rewrite (default_module_name_truthy _ _ _ Em).
      repeat step_run; discriminate.
  - intros (f & -> & Hf). unfold model_from_factory. cbn [str_rsplit1].
    change ("." ++ f)%string with (String "." f).
    rewrite (rsplit1_leading_sep _ _ Hf). unfold_run.
    cbn [List.last List.hd length Nat.ltb Nat.leb truthy String.eqb negb].
    repeat step_run; reflexivity.
Qed.

(** X3.  For a spec with a dot the dataset name plays no part: the run is
    the same whatever is passed for it. *)
Theorem dotted_spec_ignores_dataset
    (spec : string) (dataset_name dataset_name' : pyval) (w : W) :
  contains_char "." spec = true ->
  model_from_factory ext (VStr spec) dataset_name w
  = model_from_factory ext (VStr spec) dataset_name' w.
Proof.
  intros Hdot. unfold model_from_factory. cbn [str_rsplit1].
  destruct (rsplit1_dotted _ _ Hdot) as (m & f & E & _). rewrite E.
  reflexivity.
Qed.

(** X4.  When [model_from_factory] returns, the run is, after the
    resolver call of a spec without a dot: the module event for the
    module name of the spec, the lookup of the function name on the module
    that event returned, the call of the function that the lookup
    returned, the parameter count of the model that call returned, and a
    record of that module name, function name and count; the model
    returned is that model. *)
Theorem factory_model_is_returned
    (spec : string) (dataset_name model : pyval) (w : W) :
  outcome_of (model_from_factory ext (VStr spec) dataset_name w) = inr model ->
  exists module_name function_name module function params logged pre,
    module_name_of spec dataset_name module_name function_name
    /\ trace_of (model_from_factory ext (VStr spec) dataset_name w)
       = pre
         ++ [module_event module_name (inr module);
             Ext "getattr" [module; VStr function_name] [] (inr function);
             Ext "function()" [function] [] (inr model);
             Ext "ml_utils.param_size" [model] [] (inr params);
             Ext "logger.info"
               [factory_record module_name function_name params] []
               (inr logged)]
    /\ (pre = []
        \/ pre = [SelfCall "_default_module_name"
                    [dataset_name; VStr function_name]]).
Proof.
  unfold model_from_factory, factory_record, module_event, module_name_of.
  cbn [str_rsplit1].
  destruct (contains_char "." spec) eqn:Hdot.
  - destruct (rsplit1_dotted _ _ Hdot) as (m & f & E & Hs & Hf).
    rewrite E. unfold_run.
    cbn [List.last List.hd length Nat.ltb Nat.leb].
    destruct (truthy (VStr m)) eqn:Hm;
      repeat step_run; intros H; inversion H; subst model;
      exists m, f; do 4 eexists; exists [];
      (split; [left; auto|]); (split; [|left; reflexivity]);
      rewrite Hm; reflexivity.
  - rewrite (rsplit1_undotted _ _ Hdot). unfold_run.
    cbn [List.last List.hd length Nat.ltb Nat.leb].
    destruct dataset_name as [| | |ds| | |]; unfold_run; try discriminate.
    destruct (_default_module_name ds spec) as [e | m] eqn:Em;
      [discriminate|].
    pose proof (default_module_name_truthy _ _ _ Em) as Hm. rewrite Hm.
    repeat step_run; intros H; inversion H; subst model;
      exists m, spec; do 4 eexists;
      exists [SelfCall "_default_module_name" [VStr ds; VStr spec]];
      (split; [right; split; [reflexivity|]; split; [reflexivity|];
               exists ds; auto|]);
      (split; [|right; reflexivity]);
      rewrite Hm; reflexivity.
Qed.

End FactoryLookup.

Ltac solve_propagates := cbn [propagates]; repeat split; auto.

Ltac lacks_none H :=
  destruct H as (?k & ?e & H & ?Hk); cbn [In] in H;
  repeat (destruct H as [H | H]; [subst; congruence |]);
  contradiction.

Lemma propagates_after_quiet {A} (r : exn + A) (t1 t2 : trace) :
  existsb is_failure t1 = false ->
  propagates r (t1 ++ t2) <-> propagates r t2.
Proof.
  induction t1 as [|ev t1 IH]; [tauto|].
  cbn [existsb app]. intros H. apply orb_false_iff in H as [Hev Ht].
  destruct ev as [m a | c a k [e | v]]; cbn [propagates];
    try (apply IH; exact Ht).
  discriminate Hev.
Qed.

Lemma propagates_returned {A} (a : A) (t : trace) :
  propagates (inr a : exn + A) t -> existsb is_failure t = false.
Proof.
  induction t as [|ev t IH]; [reflexivity|].
  destruct ev as [m args | c args k [e | v]]; cbn [propagates existsb];
    try exact IH.
  intros [_ H]. discriminate H.
Qed.

Section CreateModelMore.
Context {W : Type} (ext : oracle W).

Lemma model_from_factory_propagates (spec dataset_name : pyval) (w : W) :
  propagates (outcome_of (model_from_factory ext spec dataset_name w))
    (trace_of (model_from_factory ext spec dataset_name w)).
Proof.
  unfold model_from_factory.
  destruct spec as [| | |s| | |]; cbn [str_rsplit1]; unfold_run;
    try exact I.
  destruct (1 <? length (rsplit1 "." s))%nat.
  - destruct (truthy (VStr (List.hd "" (rsplit1 "." s))));
      repeat step_run; solve_propagates.
  - destruct dataset_name as [| | |ds| | |]; unfold_run; try exact I.
    destruct (_default_module_name ds (List.last (rsplit1 "." s) ""))
      as [e | m] eqn:Em; [exact I|].
    rewrite (default_module_name_truthy _ _ _ Em).
    repeat step_run; solve_propagates.
Qed.

Lemma create_model_propagates
    (conf_eval builder final full : pyval) (w : W) :
  propagates (outcome_of (create_model ext conf_eval builder final full w))
    (trace_of (create_model ext conf_eval builder final full w)).
Proof.
  unfold create_model. unfold_run.
  destruct (create_model_conf_vars conf_eval final full)
    as [e | [[[[ds fin] ful] spec] cmd]]; [exact I|].
  destruct (truthy spec).
  - pose proof (model_from_factory_propagates spec ds w) as Hf.
    destruct (model_from_factory ext spec ds w) as [[r w'] t'].
    exact Hf.
  - repeat step_run; solve_propagates.
Qed.


(** A failed read of the configuration variables is the outcome, with
    nothing called. *)
Lemma conf_vars_fail_fast
    (conf_eval builder final full : pyval) (e : exn) (w : W) :
  create_model_conf_vars conf_eval final full = inl e ->
  create_model ext conf_eval builder final full w = (inl e, w, []).
Proof.
  intros Hc. unfold create_model. unfold_run. rewrite Hc. reflexivity.
Qed.

(** X6.  The factory path needs the description keys too.
    [model_from_factory] is called only when the configuration holds the
    dataset name, [model_desc] and, unless a final description path is
    passed in, [final_desc_filename] and [full_desc_filename].  When one
    of the keys is missing [create_model] raises before anything is
    called, whatever the factory spec is; a missing
    [final_desc_filename] raises the error of that read. *)
Theorem factory_path_needs_desc_keys
    (conf_eval builder final full : pyval) (w : W) :
  (calls_method "model_from_factory"
     (trace_of (create_model ext conf_eval builder final full w)) = true ->
   (exists loader dataset name,
       getitem conf_eval "loader" = inr loader
       /\ getitem loader "dataset" = inr dataset
       /\ getitem dataset "name" = inr name)
   /\ (exists conf_model_desc,
         getitem conf_eval "model_desc" = inr conf_model_desc)
   /\ (truthy final = false ->
       exists final' full',
         getitem conf_eval "final_desc_filename" = inr final'
         /\ getitem conf_eval "full_desc_filename" = inr full'))
  /\ ((truthy final = false
       /\ lacks_key conf_eval
            ["final_desc_filename"; "full_desc_filename"])
      \/ lacks_key conf_eval ["model_factory_spec"; "model_desc"] ->
      exists e,
        create_model ext conf_eval builder final full w = (inl e, w, []))
  /\ (forall loader dataset name e,
        getitem conf_eval "loader" = inr loader ->
        getitem loader "dataset" = inr dataset ->
        getitem dataset "name" = inr name ->
        truthy final = false ->
        getitem conf_eval "final_desc_filename" = inl e ->
        create_model ext conf_eval builder final full w = (inl e, w, [])).
Proof.
  split; [|split].
  - unfold create_model, create_model_conf_vars. unfold_run.
    destruct (truthy final); cbn [negb]; unfold_run;
      repeat step_run; try discriminate; intros _;
      (split; [do 3 eexists; repeat split; eassumption|]);
      (split; [eexists; reflexivity|]);
      try discriminate; intros _; do 2 eexists; split; reflexivity.
  - assert (H : (truthy final = false
                 /\ lacks_key conf_eval
                      ["final_desc_filename"; "full_desc_filename"])
                \/ lacks_key conf_eval ["model_factory_spec"; "model_desc"] ->
                exists e, create_model_conf_vars conf_eval final full = inl e).
    { unfold create_model_conf_vars, and_then.
      destruct (truthy final); cbn [negb];
        repeat match goal with
          | |- context [getitem ?c ?k] =>
              let G := fresh "G" in destruct (getitem c k) eqn:G
          end;
        try solve [intros _; eexists; reflexivity];
        intros [[Hf Hk] | Hk]; try discriminate Hf; lacks_none Hk. }
    intros Hlack. destruct (H Hlack) as [e He]. exists e.
    apply conf_vars_fail_fast. exact He.
  - intros loader dataset name e Hl Hd Hn Hf He.
    apply conf_vars_fail_fast. unfold create_model_conf_vars, and_then.
    rewrite Hl, Hd, Hn, Hf. cbn [negb]. rewrite He. reflexivity.
Qed.

(** X7.  On the description-based path the log record is put together
    after the description was saved and the model made: when the
    description configuration lacks one of the four keys the record reads,
    [create_model] raises, with the description saved and the model made,
    and nothing logged. *)
Theorem desc_record_key_missing
    (conf_eval builder final full ds fin ful spec cmd cell_descs n : pyval)
    (w : W) :
  create_model_conf_vars conf_eval final full
  = inr (ds, fin, ful, spec, cmd) ->
  truthy spec = false ->
  In (Ext "len" [cell_descs] [] (inr n))
     (trace_of (create_model ext conf_eval builder final full w)) ->
  lacks_key cmd record_keys ->
  exists e,
    outcome_of (create_model ext conf_eval builder final full w) = inl e
    /\ calls_ext "model_desc.save"
         (trace_of (create_model ext conf_eval builder final full w)) = true
    /\ calls_ext "Model"
         (trace_of (create_model ext conf_eval builder final full w)) = true
    /\ calls_ext "logger.info"
         (trace_of (create_model ext conf_eval builder final full w)) = false.
Proof.
  intros Hc Hs. unfold create_model. unfold_run. rewrite Hc, Hs.
  unfold record_keys.
  repeat step_run; intros H Hk; in_trace H;
    try solve [lacks_none Hk];
    eexists; repeat split; reflexivity.
Qed.

End CreateModelMore.

Section TrainModelMore.
Context {W : Type} (ext : oracle W).

(** X8.  [train_model] recovers from nothing: a call of the data loader,
    of the [Trainer] constructor or of [fit] that raises is the last thing
    that happens, and what it raised is what [train_model] raises. *)
Theorem train_model_no_recovery (conf_train model checkpoint : pyval) (w : W) :
  propagates (outcome_of (train_model ext conf_train model checkpoint w))
    (trace_of (train_model ext conf_train model checkpoint w)).
Proof.
  unfold train_model. unfold_run.
  repeat step_run; try solve [solve_propagates].
  match goal with
  | |- context [unpack3 ?got] =>
      destruct got as [| | | |[|x [|y [|z [|]]]]| |]
  end; cbn [unpack3]; unfold_run; try solve [solve_propagates].
  destruct (is_not_None x && is_not_None z); unfold_run;
    repeat step_run; solve_propagates.
Qed.

End TrainModelMore.

Ltac find_event := cbn [In]; repeat first [left; reflexivity | right].

Section EvaluateMore.
Context {W : Type} (ext : oracle W).

Lemma model_from_factory_no_scope (spec dataset_name : pyval) (w : W) :
  calls_any scope_calls
    (trace_of (model_from_factory ext spec dataset_name w)) = false.
Proof.
  unfold model_from_factory.
  destruct spec as [| | |s| | |]; try reflexivity.
  cbn [str_rsplit1]. unfold_run.
  destruct (1 <? length (rsplit1 "." s))%nat.
  - destruct (truthy (VStr (List.hd "" (rsplit1 "." s))));
      repeat step_run; reflexivity.
  - destruct dataset_name as [| | |ds| | |]; try reflexivity.
    destruct (_default_module_name ds (List.last (rsplit1 "." s) ""))
      as [e | m] eqn:Em; [reflexivity|].
    rewrite (default_module_name_truthy _ _ _ Em).
    repeat step_run; reflexivity.
Qed.

Lemma create_model_no_scope (conf_eval builder final full : pyval) (w : W) :
  calls_any scope_calls
    (trace_of (create_model ext conf_eval builder final full w)) = false.
Proof.
  unfold create_model. unfold_run.
  destruct (create_model_conf_vars conf_eval final full)
    as [e | [[[[ds fin] ful] spec] cmd]]; [reflexivity|].
  destruct (truthy spec).
  - pose proof (model_from_factory_no_scope spec ds w) as Hf.
    destruct (model_from_factory ext spec ds w) as [[r w'] t'].
    exact Hf.
  - repeat step_run; reflexivity.
Qed.

Lemma model_from_factory_made (spec dataset_name model : pyval) (w : W) :
  outcome_of (model_from_factory ext spec dataset_name w) = inr model ->
  made_in model (trace_of (model_from_factory ext spec dataset_name w)).
Proof.
  unfold made_in, model_from_factory.
  destruct spec as [| | |s| | |]; cbn [str_rsplit1]; unfold_run;
    try discriminate.
  destruct (1 <? length (rsplit1 "." s))%nat.
  - destruct (truthy (VStr (List.hd "" (rsplit1 "." s))));
      repeat step_run; intros H; inversion H; subst;
      right; eexists; find_event.
  - destruct dataset_name as [| | |ds| | |]; unfold_run; try discriminate.
    destruct (_default_module_name ds (List.last (rsplit1 "." s) ""))
      as [e | m] eqn:Em; [discriminate|].
    rewrite (default_module_name_truthy _ _ _ Em).
    repeat step_run; intros H; inversion H; subst;
      right; eexists; find_event.
Qed.

Lemma create_model_made
    (conf_eval builder final full model : pyval) (w : W) :
  outcome_of (create_model ext conf_eval builder final full w) = inr model ->
  made_in model (trace_of (create_model ext conf_eval builder final full w)).
Proof.
  unfold create_model. unfold_run.
  destruct (create_model_conf_vars conf_eval final full)
    as [e | [[[[ds fin] ful] spec] cmd]]; [discriminate|].
  destruct (truthy spec).
  - pose proof (model_from_factory_made spec ds model w) as Hf.
    destruct (model_from_factory ext spec ds w) as [[r w'] t'].
    unfold outcome_of, trace_of, fst, snd in Hf. intros H.
    destruct (Hf H) as [(d & k & Hin) | (f & Hin)].
    + left. exists d, k. right. exact Hin.
    + right. exists f. right. exact Hin.
  - unfold made_in.
    repeat step_run; intros H; inversion H; subst;
      left; do 2 eexists; find_event.
Qed.

Lemma made_in_later (model : pyval) (a b : event) (t1 t2 : trace) :
  made_in model t1 -> made_in model (a :: b :: t1 ++ t2).
Proof.
  intros [(d & k & H) | (f & H)]; [left; exists d, k | right; exists f];
    do 2 right; apply in_or_app; left; exact H.
Qed.

(** Takes the run apart up to the making of the model, which is left as
    one step with its lemmas [Hq], [Hs], [Hp] and [Hm]. *)
Ltac enter_evaluate :=
  unfold evaluate, train_model;
  repeat step_eval.

Ltac split_create_model :=
  match goal with
  | |- context [create_model ext ?c ?b ?f ?g ?w] =>
      pose proof (create_model_no_training ext c b f g w) as Hq;
      pose proof (create_model_no_scope c b f g w) as Hs;
      pose proof (create_model_propagates ext c b f g w) as Hp;
      pose proof (create_model_made c b f g) as Hm;
      specialize (fun model => Hm model w);
      destruct (create_model ext c b f g w) as [[[err | made] wm] t1];
      unfold outcome_of, trace_of, fst, snd in Hq, Hs, Hp, Hm
  end.

(** X9.  [evaluate] recovers from nothing: whichever collaborator call
    raises, in the making of the model, in training or in persisting, it
    is the last thing that happens and what it raised is what [evaluate]
    raises. *)
Theorem evaluate_no_recovery (conf_eval builder : pyval) (w : W) :
  propagates (outcome_of (evaluate ext conf_eval builder w))
    (trace_of (evaluate ext conf_eval builder w)).
Proof.
  generalize (eq_refl (evaluate ext conf_eval builder w)).
  generalize (evaluate ext conf_eval builder w) at 2 3 4 as run.
  intros run Hrun. revert run Hrun.
  enter_evaluate; try solve [intros run <-; solve_propagates].
  all: split_create_model.
  all: repeat step_all.
  all: intros run <-; unfold_eval; cbn [propagates].
  all: try exact Hp.
  all: apply propagates_after_quiet;
         [exact (propagates_returned _ _ Hp) | solve_propagates].
Qed.

(** X10.  Before it makes the model [evaluate] reads the checkpoint
    configuration, the resume flag and the two output filenames: when the
    configuration lacks one of them the run ends with the error right
    after the logger scope is opened, with no model made and nothing
    trained. *)
Theorem evaluate_reads_keys_first (conf_eval builder opened : pyval) (w : W) :
  In (Ext "logger.pushd" [VStr "eval_arch"] [] (inr opened))
     (trace_of (evaluate ext conf_eval builder w)) ->
  lacks_key conf_eval evaluate_keys ->
  exists e,
    outcome_of (evaluate ext conf_eval builder w) = inl e
    /\ after_call "logger.pushd" (trace_of (evaluate ext conf_eval builder w))
       = []
    /\ calls_method "create_model"
         (trace_of (evaluate ext conf_eval builder w)) = false.
Proof.
  generalize (eq_refl (evaluate ext conf_eval builder w)).
  generalize (evaluate ext conf_eval builder w) at 2 3 4 5 6 as run.
  intros run Hrun. revert run Hrun. unfold evaluate_keys.
  enter_evaluate.
  all: intros run Hrun Hin Hk; try solve [lacks_none Hk].
  all: subst run; unfold_eval; try solve [in_trace Hin].
  all: eexists; repeat split; reflexivity.
Qed.

(** X11.  The model that [evaluate] hands to the [Trainer] is the model
    that was made in this run, by [Model] or by the factory function; the
    checkpoint is the one [create_checkpoint] returned for the configured
    checkpoint section and resume flag; the trainer configuration is the
    [trainer] section. *)
Theorem evaluate_trains_what_was_made
    (conf_eval builder conf_trainer model checkpoint : pyval)
    (o : exn + pyval) (w : W) :
  In (Ext "Trainer" [conf_trainer; model; checkpoint] [] o)
     (trace_of (evaluate ext conf_eval builder w)) ->
  getitem conf_eval "trainer" = inr conf_trainer
  /\ made_in model (trace_of (evaluate ext conf_eval builder w))
  /\ exists conf_checkpoint resume,
       getitem conf_eval "checkpoint" = inr conf_checkpoint
       /\ getitem conf_eval "resume" = inr resume
       /\ In (Ext "nas_utils.create_checkpoint" [conf_checkpoint; resume] []
                (inr checkpoint))
             (trace_of (evaluate ext conf_eval builder w)).
Proof.
  generalize (eq_refl (evaluate ext conf_eval builder w)).
  generalize (evaluate ext conf_eval builder w) at 2 3 4 5 as run.
  intros run Hrun. revert run Hrun.
  enter_evaluate; try solve [intros run <- H; in_trace H].
  all: split_create_model.
  all: repeat step_all.
  all: intros run <-; unfold_eval; intros H1.
  all: in_eval Hq H1; inversion H1; subst; clear H1.
  all: split; [reflexivity|].
  all: split; [apply made_in_later; apply Hm; reflexivity|].
  all: do 2 eexists; (split; [reflexivity|]); (split; [reflexivity|]).
  all: do 2 right; apply in_or_app; right; find_event.
Qed.

(** X12.  When [evaluate] returns, what it returns are the metrics that
    [fit] returned; they were saved to the configured metric filename, and
    the logger scope that the run opened first was closed last. *)
Theorem evaluate_returns_saved_metrics
    (conf_eval builder metrics : pyval) (w : W) :
  outcome_of (evaluate ext conf_eval builder w) = inr metrics ->
  exists trainer train_dl test_dl metric_filename saved opened rest closed,
    In (Ext "trainer.fit" [trainer; train_dl; test_dl] [] (inr metrics))
       (trace_of (evaluate ext conf_eval builder w))
    /\ getitem conf_eval "metric_filename" = inr metric_filename
    /\ In (Ext "train_metrics.save" [metrics; metric_filename] []
             (inr saved))
          (trace_of (evaluate ext conf_eval builder w))
    /\ trace_of (evaluate ext conf_eval builder w)
       = Ext "logger.pushd" [VStr "eval_arch"] [] (inr opened) :: rest
    /\ In (Ext "logger.popd" [] [] (inr closed)) rest
    /\ after_call "logger.popd" rest = [].
Proof.
  generalize (eq_refl (evaluate ext conf_eval builder w)).
  generalize (evaluate ext conf_eval builder w) at 2 3 4 5 6 as run.
  intros run Hrun. revert run Hrun.
  enter_evaluate; try solve [intros run <- H; discriminate H].
  all: split_create_model.
  all: repeat step_all.
  all: intros run <-; unfold_eval; intros H1; try discriminate H1.
  all: inversion H1; subst; clear H1.
  all: do 8 eexists.
  all: split; [do 2 right; apply in_or_app; right; find_event|].
  all: split; [reflexivity|].
  all: split; [do 2 right; apply in_or_app; right; find_event|].
  all: split; [reflexivity|].
  all: split; [right; apply in_or_app; right; find_event|].
  all: cbn [after_call is_ext_call String.eqb Ascii.eqb Bool.eqb].
  all: rewrite after_call_skip
         by (apply (calls_any_each _ _ _ Hs); unfold scope_calls; in_list).
  all: reflexivity.
Qed.

End EvaluateMore.

(** ** The further properties at work on the demonstration runs *)

Lemma lookup_reassembles_spec_witness :
  contains_char "." "resnet34" = false
  /\ ((contains_char "." "archai.cifar10_models.resnet.resnet34" = false
       /\ "archai.cifar10_models.resnet.resnet34" = "resnet34")
      \/ exists module_name,
           "archai.cifar10_models.resnet.resnet34"
           = (module_name ++ "." ++ "resnet34")%string
           /\ (module_name = ""
               \/ exists o',
                    In (Ext "importlib.import_module" [VStr module_name] []
                          o') (trace_of factory_run))).
Proof.
  refine (lookup_reassembles_spec demo_ext
            "archai.cifar10_models.resnet.resnet34" "resnet34"
            (VStr "cifar10") (VObj 0) (inr (VObj 1)) demo_world _).
  apply (nth_error_In _ 1). vm_compute. reflexivity.
Defined.

Lemma own_module_iff_leading_dot_witness :
  calls_ext "sys.modules[__name__]"
    (trace_of (model_from_factory demo_ext (VStr ".resnet34")
                 (VStr "cifar10") demo_world)) = true.
Proof.
  apply (own_module_iff_leading_dot demo_ext (VStr ".resnet34")
           (VStr "cifar10") demo_world).
  exists "resnet34". split; reflexivity.
Defined.

Lemma dotted_spec_ignores_dataset_witness :
  model_from_factory demo_ext (VStr "torchvision.models.vgg16")
    (VStr "cifar10") demo_world
  = model_from_factory demo_ext (VStr "torchvision.models.vgg16") (VInt 3)
      demo_world.
Proof.
  apply (dotted_spec_ignores_dataset demo_ext "torchvision.models.vgg16"
           (VStr "cifar10") (VInt 3) demo_world).
  reflexivity.
Defined.

Lemma factory_model_is_returned_witness :
  exists module_name function_name module function params logged pre,
    module_name_of "archai.cifar10_models.resnet.resnet34" (VStr "cifar10")
      module_name function_name
    /\ trace_of factory_run
       = pre
         ++ [module_event module_name (inr module);
             Ext "getattr" [module; VStr function_name] [] (inr function);
             Ext "function()" [function] [] (inr (VObj 55));
             Ext "ml_utils.param_size" [VObj 55] [] (inr params);
             Ext "logger.info"
               [factory_record module_name function_name params] []
               (inr logged)]
    /\ (pre = []
        \/ pre = [SelfCall "_default_module_name"
                    [VStr "cifar10"; VStr function_name]]).
Proof.
  refine (factory_model_is_returned demo_ext
            "archai.cifar10_models.resnet.resnet34" (VStr "cifar10")
            (VObj 55) demo_world _).
  vm_compute. reflexivity.
Defined.


Lemma factory_path_needs_desc_keys_witness :
  ((exists loader dataset name,
       getitem factory_conf "loader" = inr loader
       /\ getitem loader "dataset" = inr dataset
       /\ getitem dataset "name" = inr name)
   /\ (exists conf_model_desc,
         getitem factory_conf "model_desc" = inr conf_model_desc)
   /\ (truthy VNone = false ->
       exists final' full',
         getitem factory_conf "final_desc_filename" = inr final'
         /\ getitem factory_conf "full_desc_filename" = inr full'))
  /\ (exists e,
        create_model demo_ext pathless_factory_conf (VObj 1) VNone VNone
          demo_world = (inl e, demo_world, []))
  /\ create_model demo_ext pathless_factory_conf (VObj 1) VNone VNone
       demo_world
     = (inl (KeyError "final_desc_filename"), demo_world, []).
Proof.
  split; [|split].
  - apply (factory_path_needs_desc_keys demo_ext factory_conf (VObj 1)
             VNone VNone demo_world).
    vm_compute. reflexivity.
  - apply (factory_path_needs_desc_keys demo_ext pathless_factory_conf
             (VObj 1) VNone VNone demo_world).
    left. split; [reflexivity|].
    exists "final_desc_filename", (KeyError "final_desc_filename").
    split; [left; reflexivity | vm_compute; reflexivity].
  - refine (proj2 (proj2 (factory_path_needs_desc_keys demo_ext
                            pathless_factory_conf (VObj 1) VNone VNone
                            demo_world))
              (demo_loader (VStr "cifar10"))
              (VConf {["name" := VStr "cifar10"]}) (VStr "cifar10")
              (KeyError "final_desc_filename") _ _ _ _ _);
      vm_compute; reflexivity.
Defined.

Lemma desc_record_key_missing_witness :
  exists e,
    outcome_of (create_model demo_ext bare_desc_conf (VObj 1) VNone VNone
                  demo_world) = inl e
    /\ calls_ext "model_desc.save"
         (trace_of (create_model demo_ext bare_desc_conf (VObj 1) VNone
                      VNone demo_world)) = true
    /\ calls_ext "Model"
         (trace_of (create_model demo_ext bare_desc_conf (VObj 1) VNone
                      VNone demo_world)) = true
    /\ calls_ext "logger.info"
         (trace_of (create_model demo_ext bare_desc_conf (VObj 1) VNone
                      VNone demo_world)) = false.
Proof.
  refine (desc_record_key_missing demo_ext bare_desc_conf (VObj 1) VNone
            VNone (VStr "cifar10") (VStr "final.yaml") (VStr "full.yaml")
            (VStr "") (VConf ∅) (VObj 3) (VObj 4) demo_world _ _ _ _).
  - vm_compute. reflexivity.
  - reflexivity.
  - apply (nth_error_In _ 7). vm_compute. reflexivity.
  - exists "init_node_ch", (KeyError "init_node_ch").
    split; [left; reflexivity | reflexivity].
Defined.

Lemma evaluate_reads_keys_first_witness :
  exists e,
    outcome_of (evaluate demo_ext metricless_conf (VObj 1) demo_world)
    = inl e
    /\ after_call "logger.pushd"
         (trace_of (evaluate demo_ext metricless_conf (VObj 1) demo_world))
       = []
    /\ calls_method "create_model"
         (trace_of (evaluate demo_ext metricless_conf (VObj 1) demo_world))
       = false.
Proof.
  refine (evaluate_reads_keys_first demo_ext metricless_conf (VObj 1)
            (VObj 0) demo_world _ _).
  - apply (nth_error_In _ 0). vm_compute. reflexivity.
  - exists "metric_filename", (KeyError "metric_filename").
    split; [do 3 right; left; reflexivity | vm_compute; reflexivity].
Defined.

Lemma evaluate_trains_what_was_made_witness :
  getitem desc_conf "trainer" = inr (VConf ∅)
  /\ made_in (VObj 2) (trace_of desc_evaluation)
  /\ exists conf_checkpoint resume,
       getitem desc_conf "checkpoint" = inr conf_checkpoint
       /\ getitem desc_conf "resume" = inr resume
       /\ In (Ext "nas_utils.create_checkpoint" [conf_checkpoint; resume] []
                (inr (VObj 7))) (trace_of desc_evaluation).
Proof.
  refine (evaluate_trains_what_was_made demo_ext desc_conf (VObj 1)
            (VConf ∅) (VObj 2) (VObj 7) (inr (VObj 8)) demo_world _).
  apply (nth_error_In _ 14). vm_compute. reflexivity.
Defined.

Lemma evaluate_returns_saved_metrics_witness :
  exists trainer train_dl test_dl metric_filename saved opened rest closed,
    In (Ext "trainer.fit" [trainer; train_dl; test_dl] [] (inr (VObj 9)))
       (trace_of desc_evaluation)
    /\ getitem desc_conf "metric_filename" = inr metric_filename
    /\ In (Ext "train_metrics.save" [VObj 9; metric_filename] []
             (inr saved)) (trace_of desc_evaluation)
    /\ trace_of desc_evaluation
       = Ext "logger.pushd" [VStr "eval_arch"] [] (inr opened) :: rest
    /\ In (Ext "logger.popd" [] [] (inr closed)) rest
    /\ after_call "logger.popd" rest = [].
Proof.
  refine (evaluate_returns_saved_metrics demo_ext desc_conf (VObj 1)
            (VObj 9) demo_world _).
  vm_compute. reflexivity.
Defined.

Lemma evaluate_propagates_missing_iterator_witness :
  outcome_of (evaluate no_test_iterator_ext desc_conf (VObj 1) demo_world)
  = inl AssertionError.
Proof.
  refine (evaluate_propagates_missing_iterator no_test_iterator_ext
            desc_conf (VObj 1) (demo_loader (VStr "cifar10")) (VObj 100)
            VNone VNone demo_world _ _).
  - apply (nth_error_In _ 13). vm_compute. reflexivity.
  - reflexivity.
Defined.
